(* ===== verification/_CoqProject ===== *)
-Q . S2P
Prelude.v
Element.v
ClassList.v
Hooks.v
ToggleSpec.v
BurgerButton.v
BannedList.v
