(* ===== verification/Prelude.v ===== *)
(** * Metaclass front end: a Rocq model of the React menu and page components

  The program (repository CarmineDetta/Metaclass, directory
  [src/frontend/src]) is two JSX files:

  - [components/BurgerButton/menu-button.jsx]: the component
    [BurgerButton] (lines 6-34) keeps one piece of React state, [isOpen],
    created by [useState(false)]; its click handler [handleClick]
    (lines 8-10) calls [setIsOpen(!isOpen)]; the class names of the
    trigger and of the panel are template literals over [isOpen]
    (lines 13-14); the JSX (lines 16-33) renders the trigger with three
    [.line] bars and a panel holding four router [Link]s, the logo
    image, and a stray [;] text.  The same file exports [MyMenu]
    (lines 36-45): the same four links, with no state.
  - [pages/bannedUserList.jsx]: [BannedList] (lines 7-27) composes
    [MyHeader], [BannedUserList] (fed the [List] prop) and [MyFooter].

  The components interact with the React runtime only: [useState] gives
  [BurgerButton] its state slot and a setter; the DOM delivers clicks
  to the [onClick] handler (bubbling from the bars to the trigger);
  React batches the setter calls of an event and commits them with a
  re-render.  The other components of the repository ([Link],
  [MyHeader], [MyFooter], [BannedUserList]) are only referenced as
  element types with props, which is all the two files do with them.

  ** Files (in dependency order, as listed in [_CoqProject])
  - [Prelude] (this file): the state monad of renders with its [mret]
    and [≫=] instances and the [run m from s] notation of
    [react_scope]; the hint databases [metaclass] (resolve) and
    [react_rw] (rewrite); the tactics [simp_react] and [bind_some];
    shared lemmas on lists, [existsb] and boolean iteration.
  - [Element]: React elements as produced by JSX ([Host], [Comp],
    [Text], [Frag]) with props, and their nested induction principle
    [elem_ind']; prop lookup (the last binding of a key wins, as in a JS
    object), path lookup, the [onClick] handlers a click meets while
    bubbling to the root, the router links and the text of a tree; the
    lemmas that a tree without listeners runs no handler; which
    elements take keyboard focus and which ones Enter activates.
  - [ClassList]: the DOM's split of a [className] string into its class
    list on ASCII whitespace; the append law, and the class list of a template literal [`base ${c ? m : ''}`].
  - [Hooks]: the React runtime, modelled from React's documented
    semantics (it is a library the sources call, not their code):
    [useState] as an operation of the render monad over hook slots,
    setter calls, the in-order [commit] of a queue, and a component
    instance with [mount], [dispatch_click] (bubbling), [flush] (commit
    and re-render), [interact] (a click and the commit at its end),
    [press_enter] (Enter on a focused node, then the commit), the step
    relation [step] and [reachable].
  - [ToggleSpec]: the specification's two-state machine ([MenuState],
    [toggle]) and the interface [ToggleMenu] with its laws
    [ToggleMenuLaws]; client lemmas proved against the interface.
  - [BurgerButton]: [handleClick], [buttonClass], [menuClass],
    [burger_jsx] and [BurgerButton] (lines 6-34 of [menu-button.jsx]),
    [MyMenu] (lines 36-45).  Module [Burger]: the view of a state, the
    invariant of reachable instances, clicks, batching, class names,
    links and text, keyboard access, and the [ToggleMenu] instance of
    the component (it discharges the interface's laws on its settled
    instances).  Module [Static]: [MyMenu].
  - [BannedList]: the page of [bannedUserList.jsx], in a section over the
    opaque type of user records.

  ** What the theorems show
  - class names: the class list of each state ([hamburger-menu] plus
    [open] only when open; [menu2] plus [menu2Open] only when open),
    from a general law of the tokenizer on template literals;
  - the runtime: every instance of [BurgerButton] reachable by clicks
    and commits in any interleaving shows the view of its one state
    slot and has only identical [setIsOpen(!b)] calls pending (rule
    induction on the step relation);
  - a click on the trigger or on any of its bars, followed by React's
    commit, negates [isOpen], and a click anywhere else changes nothing;
    after any sequence of clicks from mount the menu is open iff an odd
    number hit the trigger; clicks committed in one batch toggle once
    only (the handler reads the rendered [isOpen]);
  - keyboard: the trigger never takes focus and Enter on the focusable
    links runs no handler, so no key press opens or closes the menu;
  - the links of the panel are the same in both states, and equal to
    [MyMenu]'s: LOGIN, HOME, ABOUT, CONTACTS with their targets;
  - the text of the menu is [LOGINHOMEABOUTCONTACTS;] in both states:
    the [;] left after the logo on line 30 is rendered;
  - [BannedList] passes its [List] unchanged and always renders the
    header and the footer.

  ** Bounds and fuel
  Nothing here needs fuel: renders, commits and tree queries are
  structural recursions.  A path that leaves the tree makes
  [dispatch_click] return [None], the error value of the model.

  ** Not modelled
  CSS ([menu-button.css]) and the image file (opaque asset path), the
  router's navigation when a [Link] is followed (its [to] prop is
  kept), the bodies of [MyHeader], [MyFooter] and [BannedUserList]
  (outside [src/]), and the reconciliation of DOM nodes (the model
  compares rendered element trees, not DOM mutations).

  ** Plan beyond this state of the development
  The three components of [src/] are modelled whole.  Left for later:
  React's bail-out when a commit leaves every slot equal (no re-render;
  unobservable for these pure renders), the hook-order error of React
  when a render calls fewer or more hooks than the previous one (the
  model allocates), Tab order and Space activation in the keyboard
  model, and the structural independence of the [BannedList] frame from the
  list proved by a map over the opaque values of a tree. *)

From stdpp Require Export base list strings.
From Stdlib Require Export Bool.

Declare Scope react_scope.
Delimit Scope react_scope with react.
Open Scope react_scope.

(** ** A state monad: computations that thread a state of type [S]. *)

Definition state (S A : Type) : Type := S → A * S.

#[export] Instance state_ret {S} : MRet (state S) := λ A a s, (a, s).
#[export] Instance state_bind {S} : MBind (state S) :=
  λ A B k m s, let '(a, s') := m s in k a s'.

(** Running a computation from a state: the pair of its result and
    final state. *)
Definition run_state {S A} (m : state S A) (s : S) : A * S := m s.
Notation "'run' m 'from' s" := (run_state m s) (at level 10, m at level 9, s at level 9) : react_scope.

Create HintDb metaclass discriminated.
Create Rewrite HintDb react_rw.

Lemma state_bind_run {S A B} (m : state S A) (k : A → state S B) (s : S) :
  run (m ≫= k) from s = let '(a, s') := run m from s in run (k a) from s'.
Proof. reflexivity. Qed.

Lemma state_ret_run {S A} (a : A) (s : S) : run (mret (M := state S) a) from s = (a, s).
Proof. reflexivity. Qed.

#[export] Hint Rewrite @state_bind_run @state_ret_run : react_rw.

(** ** Boolean iteration: [n] negations give the parity of [n]. *)

Lemma iter_negb (n : nat) (b : bool) : Nat.iter n negb b = xorb (Nat.odd n) b.
Proof.
  induction n as [|n IH]; [reflexivity|].
  rewrite Nat.odd_succ, <- Nat.negb_odd. simpl Nat.iter. rewrite IH.
  by destruct (Nat.odd n), b.
Qed.

(** ** Lists *)

Lemma fold_left_const {A B} (f : A → B → A) (l : list B) (a : A) :
  (∀ b, f a b = a) → fold_left f l a = a.
Proof. intros Hf. induction l as [|b l IH]; simpl; [done|]. by rewrite Hf. Qed.

Lemma existsb_false_Forall {A} (f : A → bool) (l : list A) :
  existsb f l = false → Forall (λ x, f x = false) l.
Proof.
  induction l as [|x l IH]; simpl; [done|].
  intros [Hx Hl]%orb_false_iff. constructor; auto.
Qed.

Lemma concat_singletons {A} (l : list (list A)) (x : A) :
  Forall (λ h, h = [x]) l → concat l = replicate (length l) x.
Proof. induction 1 as [|h l -> _ IH]; simpl; [done|]. by rewrite IH. Qed.

Lemma Forall_existsb_false {A} (f : A → bool) (l : list A) :
  Forall (λ x, f x = false) l → existsb f l = false.
Proof. induction 1 as [|x l Hx _ IH]; simpl; [done|]. by rewrite Hx, IH. Qed.

Lemma existsb_filter {A} (f : A → bool) (l : list A) :
  existsb f l = match List.filter f l with [] => false | _ => true end.
Proof. induction l as [|x l IH]; simpl; [done|]. by destruct (f x). Qed.

#[export] Hint Resolve fold_left_const existsb_false_Forall : metaclass.

(** [simp_react] unfolds the monad plumbing and simplifies. *)
Ltac simp_react :=
  repeat progress (autorewrite with react_rw in *; simpl in *).

(** [bind_some as x H] cases on the option computation a goal binds
    (with [≫=] or as a [match]): the [None] case closes, and the
    [Some x] case continues with [H : m = Some x]. *)
Tactic Notation "bind_some" "as" ident(x) ident(H) :=
  lazymatch goal with
  | |- context [mbind _ ?m] => destruct m as [x|] eqn:H; simpl; [|done]
  | |- context [match ?m with Some _ => _ | None => _ end] =>
      destruct m as [x|] eqn:H; simpl; [|done]
  end.
