(* ===== verification/Element.v ===== *)
(** * React elements as JSX builds them

  A JSX expression evaluates to a tree of React elements.  [Host] is a
  lower-case tag ([div], [ul], [img], ...) rendered by the DOM, [Comp]
  an element whose type is another component ([Link], [MyHeader], ...),
  [Text] a text child, and [Frag] the fragment [<>...</>].  Props are
  the JSX attributes in source order; a prop value is a string, an
  imported asset, an event handler (of type [H]) or an opaque JS value
  (of type [D]) such as the user list passed by [BannedList].

  The queries are those the theorems need: prop lookup with JS object
  semantics (the last binding of a key wins), the subtree at a path of
  child indices, the [onClick] handlers met when a click at a path
  bubbles to the root, the router links of a tree and its text. *)

From S2P Require Import Prelude.

Section Element.
Context {H D : Type}.

Inductive prop : Type :=
  | PStr (s : string)
  | PAsset (path : string)
  | PHandler (h : H)
  | PData (d : D).

#[warnings="-register-all"]
Inductive elem : Type :=
  | Host (tag : string) (ps : list (string * prop)) (kids : list elem)
  | Comp (name : string) (ps : list (string * prop)) (kids : list elem)
  | Text (s : string)
  | Frag (kids : list elem).

(** Nested induction: the hypothesis holds of every child. *)
Definition elem_ind' (P : elem → Prop)
    (Hhost : ∀ t ps ks, Forall P ks → P (Host t ps ks))
    (Hcomp : ∀ n ps ks, Forall P ks → P (Comp n ps ks))
    (Htext : ∀ s, P (Text s))
    (Hfrag : ∀ ks, Forall P ks → P (Frag ks)) : ∀ e, P e :=
  fix IH e :=
    let fix all ks : Forall P ks :=
      match ks with
      | [] => List.Forall_nil P
      | k :: ks' => List.Forall_cons P k ks' (IH k) (all ks')
      end in
    match e with
    | Host t ps ks => Hhost t ps ks (all ks)
    | Comp n ps ks => Hcomp n ps ks (all ks)
    | Text s => Htext s
    | Frag ks => Hfrag ks (all ks)
    end.

(** A props object built from JSX attributes: a later key overrides. *)
Fixpoint prop_lookup (k : string) (ps : list (string * prop)) : option prop :=
  match ps with
  | [] => None
  | (k', v) :: ps' =>
      match prop_lookup k ps' with
      | Some v' => Some v'
      | None => if decide (k = k') then Some v else None
      end
  end.

Definition kids (e : elem) : list elem :=
  match e with
  | Host _ _ ks | Comp _ _ ks | Frag ks => ks
  | Text _ => []
  end.

(** The [className] string of a host element. *)
Definition class_name (e : elem) : option string :=
  match e with
  | Host _ ps _ =>
      match prop_lookup "className" ps with Some (PStr s) => Some s | _ => None end
  | _ => None
  end.

(** The [onClick] listener the DOM attaches to a host element. *)
Definition on_click (e : elem) : list H :=
  match e with
  | Host _ ps _ =>
      match prop_lookup "onClick" ps with Some (PHandler h) => [h] | _ => [] end
  | _ => []
  end.

Fixpoint subtree (e : elem) (p : list nat) : option elem :=
  match p with
  | [] => Some e
  | i :: p' => c ← kids e !! i; subtree c p'
  end.

(** The handlers a click on the node at [p] runs, innermost first:
    the event bubbles from the target up to the root.  [None] when the
    path leaves the tree. *)
Fixpoint click_handlers (e : elem) (p : list nat) : option (list H) :=
  match p with
  | [] => Some (on_click e)
  | i :: p' =>
      c ← kids e !! i;
      hs ← click_handlers c p';
      Some (hs ++ on_click e)
  end.

(** Whether some node of the tree has an [onClick] handler. *)
Fixpoint has_handlers (e : elem) : bool :=
  match e with
  | Host _ ps ks =>
      match prop_lookup "onClick" ps with
      | Some (PHandler _) => true
      | _ => existsb has_handlers ks
      end
  | Comp _ _ ks | Frag ks => existsb has_handlers ks
  | Text _ => false
  end.

(** The DOM's [textContent]: the texts of the tree in document order. *)
Fixpoint text_content (e : elem) : string :=
  match e with
  | Text s => s
  | Host _ _ ks | Comp _ _ ks | Frag ks => String.concat "" (map text_content ks)
  end.

(** The router links of a tree, as (label, target) in document order. *)
Fixpoint links (e : elem) : list (string * string) :=
  match e with
  | Comp n ps ks =>
      (if decide (n = "Link") then
         match prop_lookup "to" ps with
         | Some (PStr t) => [(String.concat "" (map text_content ks), t)]
         | _ => []
         end
       else []) ++ concat (map links ks)
  | Host _ _ ks | Frag ks => concat (map links ks)
  | Text _ => []
  end.

(** The props of every element of component type [n], in document order. *)
Fixpoint find_comps (n : string) (e : elem) : list (list (string * prop)) :=
  match e with
  | Comp n' ps ks =>
      (if decide (n = n') then [ps] else []) ++ concat (map (find_comps n) ks)
  | Host _ _ ks | Frag ks => concat (map (find_comps n) ks)
  | Text _ => []
  end.

(** The host elements with tag [t], in document order. *)
Fixpoint find_hosts (t : string) (e : elem) : list elem :=
  match e with
  | Host t' ps ks =>
      (if decide (t = t') then [Host t' ps ks] else []) ++ concat (map (find_hosts t) ks)
  | Comp _ _ ks | Frag ks => concat (map (find_hosts t) ks)
  | Text _ => []
  end.

(** ** Keyboard access

  HTML gives focus by default to [<a href>] and [<button>], and Enter on
  a focused one fires a click at it.  A router [Link] renders an
  [<a href>].  Any other element takes focus only with a [tabIndex]
  prop, and Enter on it fires no click (only [onKeyDown]-style listeners,
  which no tree of this program has). *)
Definition activatable (e : elem) : bool :=
  match e with
  | Host t ps _ =>
      bool_decide (t = "button") ||
      (bool_decide (t = "a") && match prop_lookup "href" ps with Some _ => true | None => false end)
  | Comp n _ _ => bool_decide (n = "Link")
  | _ => false
  end.

Definition focusable (e : elem) : bool :=
  activatable e ||
  match e with
  | Host _ ps _ => match prop_lookup "tabIndex" ps with Some _ => true | None => false end
  | _ => false
  end.

(** The handlers that pressing Enter with the node at [p] focused runs;
    [None] when that node cannot take focus. *)
Definition enter_handlers (e : elem) (p : list nat) : option (list H) :=
  c ← subtree e p;
  if activatable c then click_handlers e p
  else if focusable c then Some [] else None.

(** ** Lemmas *)

Lemma has_handlers_false (e : elem) :
  has_handlers e = false →
  on_click e = [] ∧ Forall (λ k, has_handlers k = false) (kids e).
Proof.
  destruct e as [t ps ks|n ps ks|s|ks]; simpl; try by auto with metaclass.
  destruct (prop_lookup "onClick" ps) as [[]|]; by auto with metaclass.
Qed.

(** A click inside a tree without listeners runs no handler. *)
Lemma click_handlers_no_handlers (e : elem) (p : list nat) (hs : list H) :
  has_handlers e = false → click_handlers e p = Some hs → hs = [].
Proof.
  revert e hs. induction p as [|i p IH]; intros e hs He; simpl;
    destruct (has_handlers_false e He) as [Hon Hkids].
  - by intros [= <-].
  - bind_some as c Hc.
    bind_some as hs' Hp.
    intros [= <-]. rewrite Hon, (IH c hs'); [done| |done].
    by eapply (Forall_lookup_1 (λ k, has_handlers k = false)).
Qed.

(** A click inside a host element whose children have no listeners runs
    the element's own listener only. *)
Lemma click_handlers_host_only (t : string) ps ks (p : list nat) (hs : list H) :
  Forall (λ k, has_handlers k = false) ks →
  click_handlers (Host t ps ks) p = Some hs → hs = on_click (Host t ps ks).
Proof.
  intros Hks. destruct p as [|i p]; simpl; [by intros [= <-]|].
  bind_some as c Hc.
  bind_some as hs' Hp.
  intros [= <-]. rewrite (click_handlers_no_handlers c p hs'); [done| |done].
  by eapply (Forall_lookup_1 (λ k, has_handlers k = false)).
Qed.

Lemma subtree_kid_on_click (e k : elem) (i : nat) :
  (∀ p c, subtree e p = Some c → on_click c = []) → kids e !! i = Some k →
  ∀ p c, subtree k p = Some c → on_click c = [].
Proof. intros He Hk p c Hc. apply (He (i :: p)). by simpl; rewrite Hk. Qed.

(** [has_handlers] decides that no node at any path has a listener. *)
Lemma has_handlers_spec (e : elem) :
  has_handlers e = false ↔ ∀ p c, subtree e p = Some c → on_click c = [].
Proof.
  split.
  - intros He p. revert e He. induction p as [|i p IH]; intros e He c; simpl.
    + intros [= <-]. by apply has_handlers_false.
    + destruct (has_handlers_false e He) as [_ Hkids].
      bind_some as k Hk. apply IH.
      by eapply (Forall_lookup_1 (λ k, has_handlers k = false)).
  - induction e as [t ps ks IH|n ps ks IH|s|ks IH] using elem_ind'; intros He;
      [| |done|]; rewrite Forall_lookup in IH; simpl.
    all: assert (existsb has_handlers ks = false) as Hks
      by (apply Forall_existsb_false, Forall_lookup_2; intros i k Hk;
          exact (IH i k Hk (subtree_kid_on_click _ k i He Hk))).
    all: try done.
    pose proof (He [] _ eq_refl) as Hon. simpl in Hon.
    by destruct (prop_lookup "onClick" ps) as [[]|].
Qed.

(** A click has a list of handlers exactly when its path is in the tree. *)
Lemma click_handlers_is_Some (e : elem) (p : list nat) :
  is_Some (click_handlers e p) ↔ is_Some (subtree e p).
Proof.
  revert e. induction p as [|i p IH]; intros e; simpl; [done|].
  destruct (kids e !! i) as [c|]; simpl; [|done].
  rewrite <- IH. destruct (click_handlers c p); simpl; split; by intros [].
Qed.

End Element.

Arguments prop : clear implicits.
Arguments elem : clear implicits.
