(* ===== verification/ClassList.v ===== *)
(** * Class names: template literals and the DOM's class list

  [menu-button.jsx] builds its class names with template literals such
  as [`hamburger-menu ${isOpen ? 'open' : ''}`], which is the string
  ["hamburger-menu " +:+ m] for the interpolated [m].  The browser reads
  a [className] string as its class list: the string split on ASCII
  whitespace (TAB, LF, FF, CR, SPACE), empty pieces dropped.  CSS
  selectors such as [.open] and [.menu2Open] match on that list.

  [split_ws] is the tokenizer, written as a right fold over the string:
  it returns the word being read at the left end and the complete words
  after it.  The laws: a whitespace character splits the class list of a
  concatenation into the two class lists, a token is its own class list,
  hence the class list of a template literal [`base ${on ? m : ''}`]. *)

From S2P Require Import Prelude.
From Stdlib Require Import Ascii.

Definition is_ascii_ws (c : ascii) : bool :=
  match Ascii.nat_of_ascii c with
  | 9 | 10 | 12 | 13 | 32 => true
  | _ => false
  end.

Definition push_word (w : string) (ws : list string) : list string :=
  match w with
  | EmptyString => ws
  | _ => w :: ws
  end.

Fixpoint split_ws (s : string) : string * list string :=
  match s with
  | EmptyString => (EmptyString, [])
  | String c s' =>
      let '(w, ws) := split_ws s' in
      if is_ascii_ws c then (EmptyString, push_word w ws) else (String c w, ws)
  end.

(** [element.classList] for a [className] string. *)
Definition class_list (s : string) : list string :=
  let '(w, ws) := split_ws s in push_word w ws.

(** Whether the CSS class selector [.c] matches an element of class [s]. *)
Definition has_class (c s : string) : bool := bool_decide (c ∈ class_list s).

(** A class token: non-empty, with no ASCII whitespace. *)
Fixpoint no_ws (s : string) : bool :=
  match s with
  | EmptyString => true
  | String c s' => negb (is_ascii_ws c) && no_ws s'
  end.

Definition is_token (w : string) : bool :=
  match w with
  | EmptyString => false
  | _ => no_ws w
  end.

(** ** Lemmas on the tokenizer *)

Lemma push_word_app (w : string) (ws l : list string) :
  push_word w (ws ++ l) = push_word w ws ++ l.
Proof. by destruct w. Qed.

Lemma split_ws_app (a b : string) (l : list string) :
  split_ws b = (EmptyString, l) →
  split_ws (a +:+ b) = ((split_ws a).1, (split_ws a).2 ++ l).
Proof.
  intros Hb. induction a as [|c a IH]; simpl; [exact Hb|].
  rewrite IH. destruct (split_ws a) as [w ws]; simpl.
  destruct (is_ascii_ws c); simpl; [by rewrite push_word_app | done].
Qed.

Lemma split_ws_space (c : ascii) (b : string) :
  is_ascii_ws c = true → split_ws (String c b) = (EmptyString, class_list b).
Proof.
  intros Hc. simpl. unfold class_list. destruct (split_ws b). by rewrite Hc.
Qed.

Lemma split_ws_no_ws (w : string) : no_ws w = true → split_ws w = (w, []).
Proof.
  induction w as [|c w IH]; simpl; [done|].
  intros [Hc Hw]%andb_prop. rewrite IH by done.
  by destruct (is_ascii_ws c).
Qed.

(** A whitespace character separates the class lists of its two sides. *)
Lemma class_list_app_ws (a b : string) (c : ascii) :
  is_ascii_ws c = true →
  class_list (a +:+ String c b) = class_list a ++ class_list b.
Proof.
  intros Hc. unfold class_list at 1.
  rewrite (split_ws_app a _ (class_list b)) by (by apply split_ws_space).
  unfold class_list. destruct (split_ws a) as [w ws]. apply push_word_app.
Qed.

Lemma class_list_token (w : string) : is_token w = true → class_list w = [w].
Proof.
  intros Hw. unfold class_list. destruct w as [|c w']; [done|].
  by rewrite split_ws_no_ws.
Qed.

Lemma class_list_empty : class_list "" = [].
Proof. reflexivity. Qed.

(** The class list of [`base ${on ? m : ''}`]: [base], then [m] when
    [on] holds. *)
Lemma class_list_modifier (base m : string) (on : bool) :
  is_token base = true → is_token m = true →
  class_list (base +:+ String " " (if on then m else "")) = base :: (if on then [m] else []).
Proof.
  intros Hb Hm. rewrite class_list_app_ws by done.
  rewrite class_list_token by done. by destruct on; [rewrite class_list_token|].
Qed.

Lemma has_class_modifier (base m : string) (on : bool) :
  is_token base = true → is_token m = true → base ≠ m →
  has_class m (base +:+ String " " (if on then m else "")) = on.
Proof.
  intros Hb Hm Hne. unfold has_class. rewrite class_list_modifier by done.
  destruct on; [apply bool_decide_eq_true_2 | apply bool_decide_eq_false_2];
    rewrite ?elem_of_cons, ?elem_of_nil.
  - by right; left.
  - intros [Heq|[]]. by subst.
Qed.

#[export] Hint Rewrite class_list_empty : react_rw.
#[export] Hint Resolve split_ws_no_ws class_list_token : metaclass.
