(* ===== verification/Hooks.v ===== *)
(** * The React runtime the components run on: [useState], events, commits

  A function component is a render: a computation in the state monad
  over the hook state of its instance (the list of state slots and the
  index of the next hook call).  [useState init] at hook index [i]
  allocates slot [i] with [init] the first time (mount) and reads it on
  later renders; the setter it returns is identified by [i].  An event
  handler is the list of setter calls its body makes, with their
  arguments evaluated when the handler runs: [setX(v)] is
  [SetCall i (Replace v)], [setX(f)] with a function is
  [SetCall i (Updater f)].

  An instance keeps its slots, the queue of pending setter calls and
  the element tree of its last render.  [dispatch_click p] runs the
  handlers met by a click on the node at path [p] as it bubbles to the
  root and appends their setter calls to the queue; [flush] commits the
  queue in order and re-renders.  React 18 flushes the updates of a
  discrete event (a click) when the event ends, so a user click is
  [interact p] = dispatch, then flush; the step relation [step] also
  allows several dispatches in one batch (updates scheduled outside
  React's event boundary, or synthetic clicks inside a handler). *)

From S2P Require Import Prelude Element.
From stdpp Require Import relations.

Section Hooks.
Context {V : Type}.

Record hooks := mk_hooks { slots : list V; cursor : nat }.

Abbreviation hook := (state hooks).

(** The setter returned by [useState] for slot [i]. *)
Definition setter := nat.

Inductive update :=
  | Replace (v : V)
  | Updater (f : V → V).

Record set_call := SetCall { sc_slot : setter; sc_upd : update }.

(** [const [v, setV] = useState(init)] *)
Definition useState (init : V) : hook (V * setter) :=
  λ h, let i := cursor h in
    match slots h !! i with
    | Some v => ((v, i), mk_hooks (slots h) (S i))
    | None => ((init, i), mk_hooks (slots h ++ [init]) (S i))
    end.

Definition apply_update (u : update) (v : V) : V :=
  match u with
  | Replace v' => v'
  | Updater f => f v
  end.

Definition commit_call (sl : list V) (c : set_call) : list V :=
  alter (apply_update (sc_upd c)) (sc_slot c) sl.

(** Committing a queue applies its setter calls in order. *)
Definition commit (sl : list V) (q : list set_call) : list V :=
  fold_left commit_call q sl.

Context {D : Type}.

(** Event handlers are the setter calls they make. *)
Abbreviation tree := (elem (list set_call) D).

Definition component := hook tree.

Record instance := mk_instance {
  i_slots : list V;
  i_queue : list set_call;
  i_tree : tree
}.

(** Render [c] over the slots [sl]: its tree and the slots after it. *)
Definition render (c : component) (sl : list V) : tree * list V :=
  let '(t, h) := run c from (mk_hooks sl 0) in (t, slots h).

Definition mount (c : component) : instance :=
  let '(t, sl) := render c [] in mk_instance sl [] t.

Definition dispatch_click (p : list nat) (i : instance) : option instance :=
  hs ← click_handlers (i_tree i) p;
  Some (mk_instance (i_slots i) (i_queue i ++ concat hs) (i_tree i)).

Definition flush (c : component) (i : instance) : instance :=
  match i_queue i with
  | [] => i
  | q => let '(t, sl) := render c (commit (i_slots i) q) in mk_instance sl [] t
  end.

(** A user click: the event, then the commit at its end. *)
Definition interact (c : component) (p : list nat) (i : instance) : option instance :=
  i' ← dispatch_click p i; Some (flush c i').

(** Pressing Enter with the node at [p] focused, then the commit. *)
Definition dispatch_enter (p : list nat) (i : instance) : option instance :=
  hs ← enter_handlers (i_tree i) p;
  Some (mk_instance (i_slots i) (i_queue i ++ concat hs) (i_tree i)).

Definition press_enter (c : component) (p : list nat) (i : instance) : option instance :=
  i' ← dispatch_enter p i; Some (flush c i').

Inductive step (c : component) : instance → instance → Prop :=
  | step_click p i i' : dispatch_click p i = Some i' → step c i i'
  | step_flush i : step c i (flush c i).

Definition reachable (c : component) (i : instance) : Prop :=
  rtc (step c) (mount c) i.

(** Running a sequence of user clicks; [None] if one misses the tree. *)
Fixpoint interact_all (c : component) (ps : list (list nat)) (i : instance) : option instance :=
  match ps with
  | [] => Some i
  | p :: ps' => i' ← interact c p i; interact_all c ps' i'
  end.

(** Dispatching several clicks in one batch, with no commit between. *)
Fixpoint dispatch_all (ps : list (list nat)) (i : instance) : option instance :=
  match ps with
  | [] => Some i
  | p :: ps' => i' ← dispatch_click p i; dispatch_all ps' i'
  end.

(** ** The hook *)

Lemma useState_mount (init : V) (sl : list V) :
  run (useState init) from (mk_hooks sl (length sl)) =
  ((init, length sl), mk_hooks (sl ++ [init]) (S (length sl))).
Proof.
  unfold run_state, useState; simpl.
  by rewrite lookup_ge_None_2 by lia.
Qed.

Lemma useState_read (init v : V) (sl : list V) (i : nat) :
  sl !! i = Some v →
  run (useState init) from (mk_hooks sl i) = ((v, i), mk_hooks sl (S i)).
Proof. intros Hi. unfold run_state, useState; simpl. by rewrite Hi. Qed.

(** A component that calls no hook renders its tree and keeps the slots. *)
Lemma render_pure (t : tree) (sl : list V) : render (mret t) sl = (t, sl).
Proof. unfold render. by simp_react. Qed.

(** ** Commits *)

Lemma commit_app (sl : list V) (q1 q2 : list set_call) :
  commit sl (q1 ++ q2) = commit (commit sl q1) q2.
Proof. apply fold_left_app. Qed.

Lemma commit_replace_twice (sl : list V) (i : setter) (v : V) :
  commit_call (commit_call sl (SetCall i (Replace v))) (SetCall i (Replace v)) =
  commit_call sl (SetCall i (Replace v)).
Proof. unfold commit_call; simpl. by rewrite list_alter_alter_eq. Qed.

(** [n] batched calls [setX(v)] leave [v] in the slot, as one call does. *)
Lemma commit_replicate_replace (sl : list V) (n : nat) (i : setter) (v : V) :
  commit sl (replicate (S n) (SetCall i (Replace v))) = commit_call sl (SetCall i (Replace v)).
Proof.
  induction n as [|n IH]; [done|].
  rewrite replicate_S_end, commit_app, IH. apply commit_replace_twice.
Qed.

(** [n] batched calls [setX(f)] with an updater compose [f] [n] times. *)
Lemma commit_replicate_updater (sl : list V) (n : nat) (i : setter) (f : V → V) :
  commit sl (replicate n (SetCall i (Updater f))) = alter (Nat.iter n f) i sl.
Proof.
  induction n as [|n IH].
  - symmetry. by apply list_alter_id.
  - rewrite replicate_S_end, commit_app, IH. unfold commit; simpl.
    unfold commit_call; simpl. rewrite list_alter_alter_eq.
    apply list_alter_ext; [|done]. intros x _. done.
Qed.

(** ** Flushes *)

Lemma flush_empty (c : component) (i : instance) : i_queue i = [] → flush c i = i.
Proof. unfold flush. by intros ->. Qed.

Lemma flush_pending (c : component) (i : instance) :
  i_queue i ≠ [] →
  flush c i = let '(t, sl) := render c (commit (i_slots i) (i_queue i)) in mk_instance sl [] t.
Proof. unfold flush. by destruct (i_queue i). Qed.

(** ** Runs of the step relation *)

Lemma interact_steps (c : component) (p : list nat) (i i' : instance) :
  interact c p i = Some i' → rtc (step c) i i'.
Proof.
  unfold interact. bind_some as j Hd.
  intros [= <-]. eapply rtc_l; [by eapply step_click|]. apply rtc_once, step_flush.
Qed.

Lemma dispatch_all_steps (c : component) (ps : list (list nat)) (i i' : instance) :
  dispatch_all ps i = Some i' → rtc (step c) i i'.
Proof.
  revert i. induction ps as [|p ps IH]; simpl; intros i.
  - by intros [= ->].
  - bind_some as j Hj.
    intros H. eapply rtc_l; [by eapply step_click|]. by apply IH.
Qed.

Lemma interact_all_steps (c : component) (ps : list (list nat)) (i i' : instance) :
  interact_all c ps i = Some i' → rtc (step c) i i'.
Proof.
  revert i. induction ps as [|p ps IH]; simpl; intros i.
  - by intros [= ->].
  - bind_some as j Hj.
    intros H. etrans; [by eapply interact_steps|]. by apply IH.
Qed.

End Hooks.

Arguments hooks : clear implicits.
Arguments update : clear implicits.
Arguments set_call : clear implicits.
Arguments instance : clear implicits.
Arguments component : clear implicits.

#[export] Hint Resolve interact_steps interact_all_steps dispatch_all_steps : metaclass.
