(* ===== verification/ToggleSpec.v ===== *)
(** * The toggle menu of the specification, and its interface

  The specification (section 4.1) describes the burger menu as a
  two-state machine: [Closed] (initial) and [Open], linked by one
  transition [toggle] that always flips the state.  [MenuState]
  and [toggle] state it.  The class [ToggleMenu] is the
  interface a toggle menu offers its users (an initial state, a toggle
  operation, the open flag, and the states the implementation may be
  in); [ToggleMenuLaws] are its laws.  The client lemmas of the section
  [Client] are proved against the interface only; the abstract machine
  is one instance, and [BurgerButton] proves the component another. *)

From S2P Require Import Prelude.

Inductive MenuState := Closed | Open.

#[export] Instance MenuState_eq_dec : EqDecision MenuState.
Proof. solve_decision. Defined.

Definition toggle (s : MenuState) : MenuState :=
  match s with Closed => Open | Open => Closed end.

Definition state_open (s : MenuState) : bool :=
  match s with Open => true | Closed => false end.

Class ToggleMenu (S : Type) := {
  tm_init : S;
  tm_toggle : S → S;
  tm_open : S → bool;
  tm_valid : S → Prop
}.

Class ToggleMenuLaws (S : Type) `{!ToggleMenu S} := {
  tm_valid_init : tm_valid tm_init;
  tm_valid_toggle s : tm_valid s → tm_valid (tm_toggle s);
  tm_init_closed : tm_open tm_init = false;
  tm_toggle_flips s : tm_valid s → tm_open (tm_toggle s) = negb (tm_open s)
}.

Section Client.
Context {S : Type} `{!ToggleMenu S, !ToggleMenuLaws S}.

Lemma tm_valid_iter (n : nat) : tm_valid (Nat.iter n tm_toggle tm_init).
Proof.
  induction n as [|n IH]; simpl; [apply tm_valid_init|]. by apply tm_valid_toggle.
Qed.

(** After [n] toggles from the start the menu is open iff [n] is odd. *)
Lemma tm_open_iter (n : nat) : tm_open (Nat.iter n tm_toggle tm_init) = Nat.odd n.
Proof.
  induction n as [|n IH]; simpl; [apply tm_init_closed|].
  rewrite tm_toggle_flips by apply tm_valid_iter.
  by rewrite IH, Nat.odd_succ, <- Nat.negb_odd.
Qed.

(** Two toggles restore the open flag. *)
Lemma tm_toggle_twice (s : S) : tm_valid s → tm_open (tm_toggle (tm_toggle s)) = tm_open s.
Proof.
  intros Hs. rewrite !tm_toggle_flips; auto using tm_valid_toggle. apply negb_involutive.
Qed.

End Client.

#[export] Instance spec_menu : ToggleMenu MenuState := {|
  tm_init := Closed;
  tm_toggle := toggle;
  tm_open := state_open;
  tm_valid _ := True
|}.

#[export] Instance spec_menu_laws : ToggleMenuLaws MenuState.
Proof. split; try done. by intros []. Qed.
