(* ===== verification/BurgerButton.v ===== *)
(** * [menu-button.jsx]: the burger menu and the static menu

  [BurgerButton] (lines 6-34) is a render over one [useState] slot of
  type [bool]; its setter is slot [0].  [handleClick], [buttonClass]
  and [menuClass] are the three constants of its body (lines 8-14),
  [burger_jsx] the returned JSX (lines 16-33) as a function of the
  constants it refers to.  [MyMenu] (lines 36-45) is the stateless
  menu.  The module [Burger] proves what one instance of the component
  does under the runtime of [Hooks]: its invariant over the step
  relation, the effect of a click on every path of its tree, batching,
  the class names, links and text it shows, and what the keyboard can
  do with it. *)

From S2P Require Import Prelude Element ClassList Hooks ToggleSpec.
From stdpp Require Import relations.

(** Elements of this file: handlers make [bool] setter calls; there are
    no opaque JS values in props. *)
Abbreviation handler := (list (set_call bool)).
Abbreviation jsx := (elem handler Empty_set).

(** [const handleClick = () => { setIsOpen(!isOpen); };] *)
Definition handleClick (isOpen : bool) (setIsOpen : setter) : handler :=
  [SetCall setIsOpen (Replace (negb isOpen))].

(** [const buttonClass = `hamburger-menu ${isOpen ? 'open' : ''}`;] *)
Definition buttonClass (isOpen : bool) : string :=
  "hamburger-menu " +:+ (if isOpen then "open" else "").

(** [const menuClass = `menu2 ${isOpen ? 'menu2Open' : ''}`;] *)
Definition menuClass (isOpen : bool) : string :=
  "menu2 " +:+ (if isOpen then "menu2Open" else "").

(** [<div className="line"></div>] *)
Definition line : jsx := Host "div" [("className", PStr "line")] [].

Definition nav_link (to label : string) : jsx :=
  Comp "Link" [("to", PStr to)] [Text label].

(** The JSX of lines 16-33.  The [;] after [<img ...></img>] on line 30
    is JSX text, a child of the panel. *)
Definition burger_jsx (buttonClass menuClass : string) (handleClick : handler) : jsx :=
  Host "div" [("className", PStr "responsiveMenu")]
    [ Host "div" [("className", PStr buttonClass); ("onClick", PHandler handleClick)]
        [line; line; line];
      Host "div" [("className", PStr menuClass)]
        [ Host "ul" []
            [ Host "li" [] [nav_link "/login" "LOGIN"];
              Host "li" [] [nav_link "/" "HOME"];
              Host "li" [] [nav_link "/" "ABOUT"];
              Host "li" [] [nav_link "/" "CONTACTS"] ];
          Host "img" [("src", PAsset "../../img/MetaClassLogo.png");
                      ("className", PStr "App-logo");
                      ("alt", PStr "no image");
                      ("id", PStr "menu2-image")] [];
          Text ";" ] ].

Definition BurgerButton : component bool Empty_set :=
  '(isOpen, setIsOpen) ← useState false;
  let handleClick := handleClick isOpen setIsOpen in
  let buttonClass := buttonClass isOpen in
  let menuClass := menuClass isOpen in
  mret (burger_jsx buttonClass menuClass handleClick).

(** [export function MyMenu()], lines 36-45. *)
Definition MyMenu : component bool Empty_set :=
  mret (Host "div" []
    [ nav_link "/login" "LOGIN";
      nav_link "/" "HOME";
      nav_link "/" "ABOUT";
      nav_link "/" "CONTACTS" ]).

Module Burger.

(** The tree rendered when the slot holds [b]. *)
Definition view (b : bool) : jsx :=
  burger_jsx (buttonClass b) (menuClass b) (handleClick b 0).

(** A settled instance: slot [b], nothing pending, the view of [b]. *)
Definition settled (b : bool) : instance bool Empty_set :=
  mk_instance [b] [] (view b).

(** The open state of an instance. *)
Definition is_open (i : instance bool Empty_set) : bool :=
  default false (i_slots i !! 0).

(** The invariant of every reachable instance: one slot [b], the view of
    [b], and a queue of [n] identical calls [setIsOpen(!b)]. *)
Definition inv (i : instance bool Empty_set) : Prop :=
  ∃ b n, i = mk_instance [b] (replicate n (SetCall 0 (Replace (negb b)))) (view b).

(** The trigger is child [0] of the root; the panel is child [1]. *)
Definition on_trigger (p : list nat) : bool :=
  match p with 0 :: _ => true | _ => false end.

(** ** Rendering *)

Lemma render_mount : render BurgerButton [] = (view false, [false]).
Proof. reflexivity. Qed.

Lemma render_slot (b : bool) : render BurgerButton [b] = (view b, [b]).
Proof. reflexivity. Qed.

Lemma mount_settled : mount BurgerButton = settled false.
Proof. reflexivity. Qed.

(** ** Clicks *)

(** The handlers a click on path [p] runs: [handleClick] when [p] is in
    the trigger (the trigger or one of its bars), none elsewhere. *)
Lemma click_handlers_view (b : bool) (p : list nat) (hs : list handler) :
  click_handlers (view b) p = Some hs →
  hs = if on_trigger p then [handleClick b 0] else [].
Proof.
  destruct p as [|[|[|k]] q]; simpl; try by intros [= <-].
  - bind_some as hs' Hq.
    intros [= <-]. apply click_handlers_host_only in Hq; [by subst|].
    repeat constructor.
  - bind_some as hs' Hq.
    intros [= <-]. apply click_handlers_no_handlers in Hq; [by subst|reflexivity].
Qed.

Lemma dispatch_view (b : bool) (n : nat) (p : list nat) (i' : instance bool Empty_set) :
  dispatch_click p (mk_instance [b] (replicate n (SetCall 0 (Replace (negb b)))) (view b)) = Some i' →
  i' = mk_instance [b] (replicate (n + if on_trigger p then 1 else 0) (SetCall 0 (Replace (negb b)))) (view b).
Proof.
  unfold dispatch_click; simpl.
  bind_some as hs Hp.
  intros [= <-]. rewrite (click_handlers_view b p hs Hp).
  by destruct (on_trigger p); simpl; rewrite ?replicate_add, ?app_nil_r.
Qed.

(** The commit of [n > 0] pending [setIsOpen(!b)] calls settles on [!b]. *)
Lemma flush_view (b : bool) (n : nat) :
  flush BurgerButton (mk_instance [b] (replicate n (SetCall 0 (Replace (negb b)))) (view b)) =
  match n with
  | 0 => settled b
  | S _ => settled (negb b)
  end.
Proof.
  destruct n as [|n]; [done|].
  rewrite flush_pending by done. cbn [i_queue i_slots].
  rewrite commit_replicate_replace. reflexivity.
Qed.

(** ** The invariant *)

Lemma step_inv (i i' : instance bool Empty_set) :
  inv i → step BurgerButton i i' → inv i'.
Proof.
  intros Hi Hstep. destruct Hstep as [p i i' Hd|i]; destruct Hi as (b & n & ->).
  - apply dispatch_view in Hd as ->. by eexists _, _.
  - rewrite flush_view. destruct n; [by exists b, 0|].
    exists (negb b), 0. done.
Qed.

(** C2. Every reachable instance of [BurgerButton] has one state slot
    [b], shows exactly the view of [b], and has only [setIsOpen(!b)]
    calls pending. *)
Theorem reachable_inv (i : instance bool Empty_set) :
  reachable BurgerButton i → inv i.
Proof.
  unfold reachable. revert i. apply rtc_ind_r.
  - rewrite mount_settled. by exists false, 0.
  - intros y z _ Hyz Hy. by eapply step_inv.
Qed.

Lemma reachable_inv_witness :
  reachable BurgerButton (settled true) ∧ inv (settled true).
Proof.
  assert (Hr : reachable BurgerButton (settled true)).
  { apply (interact_steps BurgerButton [0]). reflexivity. }
  split; [exact Hr|]. exact (reachable_inv (settled true) Hr).
Defined.

(** C1. A user click on path [p] of a settled menu showing [b] leaves it
    settled, showing [!b] when [p] is in the trigger (the trigger itself
    or one of its three bars), and [b] anywhere else. *)
Theorem interact_settled (b : bool) (p : list nat) (i' : instance bool Empty_set) :
  interact BurgerButton p (settled b) = Some i' →
  i' = settled (if on_trigger p then negb b else b).
Proof.
  unfold interact. bind_some as j Hd.
  intros [= <-]. apply (dispatch_view b 0) in Hd as ->.
  rewrite flush_view. by destruct (on_trigger p).
Qed.

Lemma interact_settled_witness :
  interact BurgerButton [0; 1] (settled false) = Some (settled true) ∧
  settled true = settled (if on_trigger [0; 1] then negb false else false).
Proof. split; [reflexivity|]. apply (interact_settled false [0; 1]). reflexivity. Defined.

Lemma interact_all_settled (b : bool) (ps : list (list nat)) (i : instance bool Empty_set) :
  interact_all BurgerButton ps (settled b) = Some i →
  i = settled (xorb (Nat.odd (length (List.filter on_trigger ps))) b).
Proof.
  revert b. induction ps as [|p ps IH]; intros b; simpl.
  - by intros [= <-].
  - bind_some as j Hj.
    apply interact_settled in Hj as ->. intros ->%IH.
    destruct (on_trigger p); simpl; [|done].
    rewrite Nat.odd_succ, <- Nat.negb_odd. by destruct (Nat.odd _), b.
Qed.

(** C3. After any sequence of user clicks from mount, the menu is
    settled and open exactly when an odd number of them hit the
    trigger. *)
Theorem clicks_parity (ps : list (list nat)) (i : instance bool Empty_set) :
  interact_all BurgerButton ps (mount BurgerButton) = Some i →
  i = settled (Nat.odd (length (List.filter on_trigger ps))).
Proof.
  rewrite mount_settled. intros H%interact_all_settled. by rewrite xorb_false_r in H.
Qed.

Lemma clicks_parity_witness :
  interact_all BurgerButton [[0]; [1; 0]; [0; 2]] (mount BurgerButton) = Some (settled false) ∧
  settled false = settled (Nat.odd (length (List.filter on_trigger [[0]; [1; 0]; [0; 2]]))).
Proof. split; [reflexivity|]. apply (clicks_parity [[0]; [1; 0]; [0; 2]]). reflexivity. Defined.

Lemma dispatch_all_view (b : bool) (n : nat) (ps : list (list nat)) (i : instance bool Empty_set) :
  dispatch_all ps (mk_instance [b] (replicate n (SetCall 0 (Replace (negb b)))) (view b)) = Some i →
  i = mk_instance [b] (replicate (n + length (List.filter on_trigger ps)) (SetCall 0 (Replace (negb b)))) (view b).
Proof.
  revert n. induction ps as [|p ps IH]; intros n; simpl.
  - intros [= <-]. by rewrite Nat.add_0_r.
  - bind_some as j Hj.
    apply dispatch_view in Hj as ->. intros ->%IH. f_equal. f_equal.
    destruct (on_trigger p); simpl; lia.
Qed.

(** C4. Clicks committed in one batch toggle the menu once at most: the
    handler computes [!isOpen] from the value of its render, so every
    click of the batch sets the same value. *)
Theorem batched_clicks (b : bool) (ps : list (list nat)) (i : instance bool Empty_set) :
  dispatch_all ps (settled b) = Some i →
  flush BurgerButton i = settled (if existsb on_trigger ps then negb b else b).
Proof.
  intros H. apply (dispatch_all_view b 0) in H as ->.
  rewrite flush_view, existsb_filter. by destruct (List.filter on_trigger ps).
Qed.

Lemma batched_clicks_witness :
  dispatch_all [[0]; [0; 2]] (settled false) =
    Some (mk_instance [false] (replicate 2 (SetCall 0 (Replace true))) (view false)) ∧
  flush BurgerButton (mk_instance [false] (replicate 2 (SetCall 0 (Replace true))) (view false)) =
    settled (if existsb on_trigger [[0]; [0; 2]] then negb false else false).
Proof. split; [reflexivity|]. apply (batched_clicks false [[0]; [0; 2]]). reflexivity. Defined.

(** ** What the menu shows *)

(** C5. The trigger's class list is [hamburger-menu], with [open] exactly
    when the menu is open, so the selector [.open] matches iff [isOpen]. *)
Theorem trigger_classes (b : bool) :
  (subtree (view b) [0] ≫= class_name) = Some (buttonClass b) ∧
  class_list (buttonClass b) = "hamburger-menu" :: (if b then ["open"] else []) ∧
  has_class "open" (buttonClass b) = b.
Proof.
  split; [done|]. split.
  - by apply (class_list_modifier "hamburger-menu" "open" b).
  - by apply (has_class_modifier "hamburger-menu" "open" b).
Qed.

(** C6. The panel's class list is [menu2], with [menu2Open] exactly when
    the menu is open. *)
Theorem panel_classes (b : bool) :
  (subtree (view b) [1] ≫= class_name) = Some (menuClass b) ∧
  class_list (menuClass b) = "menu2" :: (if b then ["menu2Open"] else []) ∧
  has_class "menu2Open" (menuClass b) = b.
Proof.
  split; [done|]. split.
  - by apply (class_list_modifier "menu2" "menu2Open" b).
  - by apply (has_class_modifier "menu2" "menu2Open" b).
Qed.

(** C7. Open or closed, the panel holds the same four router links, in
    the order LOGIN, HOME, ABOUT, CONTACTS; only CSS hides them. *)
Theorem view_links (b : bool) :
  links (view b) = [("LOGIN", "/login"); ("HOME", "/"); ("ABOUT", "/"); ("CONTACTS", "/")].
Proof. reflexivity. Qed.

(** C8. The text of the menu ends with the [;] that line 30 leaves after
    the logo: it is rendered, in both states, as the last child of the
    panel. *)
Theorem view_text (b : bool) :
  text_content (view b) = "LOGINHOMEABOUTCONTACTS;" ∧
  subtree (view b) [1; 2] = Some (Text ";").
Proof. split; reflexivity. Qed.

(** ** Keyboard *)

(** Nothing in the trigger takes focus: it is a [div] without [tabIndex]
    and its bars are [div]s too. *)
Lemma trigger_not_focusable (b : bool) (p : list nat) (c : jsx) :
  on_trigger p = true → subtree (view b) p = Some c → focusable c = false.
Proof.
  destruct p as [|[|i] q]; try done; intros _.
  destruct q as [|[|[|[|j]]] q]; simpl; try by intros [= <-].
  all: destruct q; simpl; [by intros [= <-] | done].
Qed.

Lemma enter_handlers_view (b : bool) (p : list nat) (hs : list handler) :
  enter_handlers (view b) p = Some hs → hs = [].
Proof.
  unfold enter_handlers. bind_some as c Hc.
  destruct (activatable c) eqn:Ha.
  - intros ->%click_handlers_view. destruct (on_trigger p) eqn:Ht; [|done].
    pose proof (trigger_not_focusable b p c Ht Hc) as Hf.
    unfold focusable in Hf. by rewrite Ha in Hf.
  - destruct (focusable c); [by intros [= <-] | done].
Qed.

(** C9. The menu cannot be operated from the keyboard: the trigger is a
    [div] with [onClick] and no [tabIndex], so it never takes focus, and
    Enter on the nodes that do (the four links) runs no handler.
    Pressing Enter anywhere leaves the menu as it was. *)
Theorem keyboard_cannot_toggle (b : bool) (p : list nat) (i' : instance bool Empty_set) :
  press_enter BurgerButton p (settled b) = Some i' → i' = settled b.
Proof.
  unfold press_enter, dispatch_enter. simpl i_tree.
  destruct (enter_handlers (view b) p) as [hs|] eqn:Hp; simpl; [|done].
  apply enter_handlers_view in Hp as ->. by intros [= <-].
Qed.

Lemma keyboard_cannot_toggle_witness :
  press_enter BurgerButton [1; 0; 0; 0] (settled true) = Some (settled true) ∧
  settled true = settled true.
Proof.
  split; [reflexivity|]. apply (keyboard_cannot_toggle true [1; 0; 0; 0]). reflexivity.
Defined.

(** ** The component as an implementation of the specification's menu *)

(** A click on the trigger, as the interface's [toggle]. *)
Definition click_trigger (i : instance bool Empty_set) : instance bool Empty_set :=
  default i (interact BurgerButton [0] i).

#[export] Instance burger_menu : ToggleMenu (instance bool Empty_set) := {|
  tm_init := mount BurgerButton;
  tm_toggle := click_trigger;
  tm_open := is_open;
  tm_valid i := ∃ b, i = settled b
|}.

Lemma click_trigger_settled (b : bool) : click_trigger (settled b) = settled (negb b).
Proof. reflexivity. Qed.

#[export] Instance burger_menu_laws : ToggleMenuLaws (instance bool Empty_set).
Proof.
  split; simpl.
  - by exists false.
  - intros s [b ->]. rewrite click_trigger_settled. by eexists.
  - done.
  - intros s [b ->]. by rewrite click_trigger_settled.
Qed.

End Burger.

(** ** [MyMenu] *)

Module Static.

(** C10. [MyMenu] uses no hook and renders the same four links as the
    burger panel, in the same order. *)
Theorem mymenu_links (sl : list bool) (b : bool) :
  (render MyMenu sl).2 = sl ∧ links (render MyMenu sl).1 = links (Burger.view b).
Proof. split; reflexivity. Qed.

End Static.
