(* ===== verification/BannedList.v ===== *)
(** * [pages/bannedUserList.jsx]: the banned-user page

  [BannedList] (lines 7-27) is a function component of its props
  [{List}]; it calls no hook.  It returns a fragment of three regions:
  a [header] holding [MyHeader], a [section] whose [total-body] div
  holds [BannedUserList] with [userList={List}], and a [footer] holding
  [MyFooter].  The user records are opaque: the type [User] is a
  parameter of the section.  The theorems: the list reaches
  [BannedUserList] unchanged, and the frame is the same for every list,
  the empty one included. *)

From S2P Require Import Prelude Element Hooks.

Section BannedList.
Context {User : Type}.

(** No element of the page has a handler; its opaque values are lists
    of user records. *)
Abbreviation page := (elem (list (set_call Empty_set)) (list User)).

(** [export const BannedList = ({List}) => { return (<> ... </>); }] *)
Definition BannedList (List : list User) : component Empty_set (list User) :=
  mret (Frag
    [ Host "header" [] [Comp "MyHeader" [] []];
      Host "section" []
        [Host "div" [("className", PStr "total-body")]
           [Host "div" [] [Comp "BannedUserList" [("userList", PData List)] []]]];
      Host "footer" [] [Comp "MyFooter" [] []] ]).

(** The page rendered for [List]. *)
Definition page_of (List : list User) : page := (render (BannedList List) []).1.

(** C11. The page renders exactly one [BannedUserList], and its
    [userList] prop is the [List] prop of the page, unchanged. *)
Theorem bannedlist_passes_list (List : list User) :
  find_comps "BannedUserList" (page_of List) = [[("userList", PData List)]].
Proof. reflexivity. Qed.

(** C12. For every list, the empty one included, the page is a header
    with [MyHeader], then a [section] whose first child is the
    [total-body] div, then a footer with [MyFooter], and nothing else;
    rendering allocates no hook slot. *)
Theorem bannedlist_frame (List : list User) (sl : list Empty_set) :
  (render (BannedList List) sl).2 = sl ∧
  kids (page_of List) !! 0 = Some (Host "header" [] [Comp "MyHeader" [] []]) ∧
  (∃ ks, kids (page_of List) !! 1 = Some (Host "section" [] ks)) ∧
  (subtree (page_of List) [1; 0] ≫= class_name) = Some "total-body" ∧
  kids (page_of List) !! 2 = Some (Host "footer" [] [Comp "MyFooter" [] []]) ∧
  length (kids (page_of List)) = 3 ∧
  find_comps "MyHeader" (page_of List) = [[]] ∧
  find_comps "MyFooter" (page_of List) = [[]].
Proof. repeat split; by eauto. Qed.

End BannedList.
